(** * ParseNode.execute (scrapegraphai/nodes/parse_node.py)

    A shallow embedding of the chunking node.  Python values are a small
    universe [pyobj]; a call either returns a value or raises a built-in
    exception; the calls to the collaborators (logger, input-key lookup,
    HTML normaliser, token counters, semchunk) are recorded in a trace so
    that "before" and "only logged" can be stated. *)

From Stdlib Require Import ZArith String Ascii List Lia.
From Stdlib Require Import PrimFloat SpecFloat FloatOps.
From stdpp Require Import base option list strings gmap.

Local Open Scope string_scope.
Local Open Scope list_scope.
Local Open Scope Z_scope.

(** ** Python values and exceptions *)

Module Py.

(** The built-in exception classes the node can raise, and [OtherError]
    for a class defined elsewhere (a collaborator's, or an application's). *)
Inductive exn : Type :=
| AttributeError
| TypeError
| KeyError
| IndexError
| ZeroDivisionError
| OverflowError
| ValueError
| UnboundLocalError
| OtherError (class_name : string).

Inductive result (A : Type) : Type :=
| Ok (a : A)
| Raise (e : exn).
Arguments Ok {A} a.
Arguments Raise {A} e.

#[export] Instance result_ret : MRet result := fun A a => Ok a.
#[export] Instance result_bind : MBind result := fun A B f r =>
  match r with
  | Ok a => f a
  | Raise e => Raise e
  end.

(** The values that flow through the node: [None], [str], [int], [float],
    a langchain [Document] (only its [page_content] is read) and [list]. *)
#[warnings="-register-all"]
Inductive pyobj : Type :=
| PNone
| PStr (s : string)
| PInt (z : Z)
| PFloat (f : float)
| PDocument (page_content : string)
| PList (items : list pyobj).

(** [str.split(sep)] for a one-character separator: the segments between
    the separators, never an empty list. *)
Fixpoint split_pair (sep : ascii) (s : string) : string * list string :=
  match s with
  | EmptyString => (EmptyString, [])
  | String c rest =>
      let '(seg, segs) := split_pair sep rest in
      if Ascii.eqb c sep then (EmptyString, seg :: segs)
      else (String c seg, segs)
  end.

Definition str_split (sep : ascii) (s : string) : list string :=
  let '(seg, segs) := split_pair sep s in seg :: segs.

(** [l[-1]] and [l[0]] on a Python list. *)
Definition getitem_last {A} (l : list A) : result A :=
  match last l with
  | Some a => Ok a
  | None => Raise IndexError
  end.

Definition getitem_first {A} (l : list A) : result A :=
  match l with
  | a :: _ => Ok a
  | [] => Raise IndexError
  end.

(** [o[0]] on an arbitrary value: a list gives its first item, a string its
    first character (as a string); nothing else here is subscriptable. *)
Definition getitem0 (o : pyobj) : result pyobj :=
  match o with
  | PList items => getitem_first items
  | PStr (String c _) => Ok (PStr (String c EmptyString))
  | PStr EmptyString => Raise IndexError
  | PNone | PInt _ | PFloat _ | PDocument _ => Raise TypeError
  end.

(** [o.page_content]: only a [Document] has the attribute. *)
Definition page_content_of (o : pyobj) : result string :=
  match o with
  | PDocument text => Ok text
  | _ => Raise AttributeError
  end.

(** [o.split("/")]: only [str] has the method. *)
Definition split_slash (o : pyobj) : result (list string) :=
  match o with
  | PStr s => Ok (str_split "/"%char s)
  | _ => Raise AttributeError
  end.

(** *** Numbers *)

(** [float(z)] as CPython converts an [int] operand: round to nearest even,
    [OverflowError] when the result does not fit a double. *)
Definition float_of_int (z : Z) : result float :=
  match binary_normalize prec emax z 0 false with
  | S754_infinity _ => Raise OverflowError
  | sf => Ok (SF2Prim sf)
  end.

(** [int(f)]: truncation towards zero; infinities and NaN are refused. *)
Definition int_of_float (f : float) : result Z :=
  match Prim2SF f with
  | S754_zero _ => Ok 0
  | S754_infinity _ => Raise OverflowError
  | S754_nan => Raise ValueError
  | S754_finite s m e =>
      let mag := if 0 <=? e then Z.pos m * 2 ^ e else Z.pos m / 2 ^ (- e) in
      Ok (if s then - mag else mag)
  end.

(** [s * n] for a string: [n] copies, none when [n <= 0]. *)
Fixpoint str_repeat (s : string) (n : nat) : string :=
  match n with
  | O => EmptyString
  | S n' => String.append s (str_repeat s n')
  end.

(** The binary [*].  A sequence is repeated by an [int] and by nothing
    else: [str * float] is a [TypeError]. *)
Definition mul (a b : pyobj) : result pyobj :=
  match a, b with
  | PInt x, PInt y => Ok (PInt (x * y))
  | PInt x, PFloat g => f ← float_of_int x; Ok (PFloat (f * g)%float)
  | PFloat f, PInt y => g ← float_of_int y; Ok (PFloat (f * g)%float)
  | PFloat f, PFloat g => Ok (PFloat (f * g)%float)
  | PStr s, PInt n | PInt n, PStr s => Ok (PStr (str_repeat s (Z.to_nat n)))
  | PList l, PInt n | PInt n, PList l =>
      Ok (PList (List.concat (List.repeat l (Z.to_nat n))))
  | _, _ => Raise TypeError
  end.

(** [s[start:stop]] with Python's treatment of negative and out-of-range
    indices (step 1). *)
Definition clamp_index (len i : Z) : Z :=
  if i <? 0 then Z.max 0 (i + len) else Z.min i len.

Definition str_slice (s : string) (start stop : Z) : string :=
  let chars := list_ascii_of_string s in
  let len := Z.of_nat (length chars) in
  let lo := clamp_index len start in
  let hi := clamp_index len stop in
  string_of_list_ascii (take (Z.to_nat (hi - lo)) (drop (Z.to_nat lo) chars)).

(** [range(n)] for an [int]. *)
Definition range (n : Z) : list Z := map Z.of_nat (seq 0 (Z.to_nat n)).

End Py.
Import Py.

(** ** Runs: an outcome together with the collaborator calls made *)

(** One event per call that leaves the node: [self.logger.info(msg)],
    [self.get_input_keys(state)], [transform_documents] of the
    [Html2TextTransformer], [num_tokens_openai(text)],
    [num_tokens_mistral(text, model_name)], [print(msg)] and
    [semchunk.chunk(text, chunk_size, ...)]. *)
Inductive event : Type :=
| LogInfo (msg : string)
| GetInputKeys
| Html2Text
| CountOpenAI (text : string)
| CountMistral (text model_name : string)
| Printed (msg : string)
| Semchunk (text : pyobj) (chunk_size : Z).

Record run (A : Type) : Type := Run { trace : list event; outcome : result A }.
Arguments Run {A} trace outcome.
Arguments trace {A} r.
Arguments outcome {A} r.

#[export] Instance run_ret : MRet run := fun A a => Run [] (Ok a).
#[export] Instance run_bind : MBind run := fun A B f r =>
  match outcome r with
  | Ok a => Run (trace r ++ trace (f a)) (outcome (f a))
  | Raise e => Run (trace r) (Raise e)
  end.

Definition lift {A} (r : result A) : run A := Run [] r.
Definition call {A} (ev : event) (r : result A) : run A := Run [ev] r.
Definition emit (ev : event) : run unit := Run [ev] (Ok tt).

(** An event that counts tokens or splits text: chunking has begun. *)
Definition chunking_event (ev : event) : bool :=
  match ev with
  | CountOpenAI _ | CountMistral _ _ | Semchunk _ _ => true
  | LogInfo _ | GetInputKeys | Html2Text | Printed _ => false
  end.

(** ** The node *)

(** What the [isinstance] tests of [execute] distinguish. *)
Inductive model_class : Type :=
| ChatOpenAI
| ChatMistralAI
| ChatOllama
| OtherModel.

Record chat_model : Type := ChatModel { class : model_class; name : pyobj }.

(** The attributes [execute] reads.  [llm_model] is
    [node_config.get("llm_model")], so it can be [None]; [chunk_size] is
    [node_config.get("chunk_size")] before the default is applied. *)
Record ParseNode : Type := {
  node_name : string;
  output : list string;
  verbose : bool;
  parse_html : bool;
  llm_model : option chat_model;
  chunk_size : option Z
}.

(** The literal [0.9]: the double nearest to nine tenths. *)
Definition headroom : float := 0x1.ccccccccccccdp-1%float.

(** Line 79: [self.llm_model.name.split("/")[-1] * 0.9]. *)
Definition context_window_expr (m : option chat_model) : result pyobj :=
  model ← match m with Some b => Ok b | None => Raise AttributeError end;
  segments ← split_slash (name model);
  segment ← getitem_last segments;
  mul (PStr segment) (PFloat headroom).

(** Lines 84-93 and 99-108: the slicing loop, for whatever value
    [context_window] holds.
    - an [int]: [//] and [%] are floor division and its remainder (the
      remainder has the divisor's sign, as [Z.div] and [Z.modulo] have it),
      [range] counts the slices and every slice is appended;
    - a [float]: [num_tokens // context_window] converts [num_tokens] and
      refuses a zero divisor, the quotient, the remainder and
      [num_chunks + 1] are floats, and [range] refuses a float;
    - anything else: [int // x] is not defined. *)
Definition slice_chunks (page_content : string) (num_tokens : Z)
    (context_window : pyobj) : result (list string) :=
  match context_window with
  | PInt w =>
      if w =? 0 then Raise ZeroDivisionError
      else
        let num_chunks := num_tokens / w in
        let num_chunks :=
          if negb (num_tokens mod w =? 0) then num_chunks + 1 else num_chunks in
        Ok (fold_left
              (fun (chunks : list string) (i : Z) =>
                 (chunks ++ [str_slice page_content (i * w) ((i + 1) * w)])%list)
              (range num_chunks) [])
  | PFloat f =>
      _ ← float_of_int num_tokens;
      if (f =? 0)%float then Raise ZeroDivisionError else Raise TypeError
  | PNone | PStr _ | PDocument _ | PList _ => Raise TypeError
  end.

(** Line 115: [min(chunk_size - 500, int(chunk_size * 0.9))]. *)
Definition shrink_chunk_size (c : Z) : result Z :=
  f ← float_of_int c;
  scaled ← int_of_float (f * headroom)%float;
  Ok (Z.min (c - 500) scaled).

Section Node.

(** The collaborators, taken as they are: each returns or raises. *)
Variable get_input_keys : gmap string pyobj → result (list string).
Variable transform_documents : pyobj → result pyobj.
Variable num_tokens_openai : string → result Z.
Variable num_tokens_mistral : string → string → result Z.
(** [semchunk.chunk] with the word counter [len(text.split())]. *)
Variable chunk : pyobj → Z → result (list string).

Variable self : ParseNode.

(** Lines 81-126: the dispatch on the model's class ([None] is an instance
    of none of the three classes).  The result is the local variable
    [chunks]: [None] while no branch has assigned it. *)
Definition dispatch (docs_transformed context_window : pyobj)
    : run (option (list string)) :=
  match llm_model self with
  | Some (ChatModel ChatOpenAI _) =>
      text ← lift (page_content_of docs_transformed);
      num_tokens ← call (CountOpenAI text) (num_tokens_openai text);
      chunks ← lift (slice_chunks text num_tokens context_window);
      mret (Some chunks)
  | Some (ChatModel ChatMistralAI model_id) =>
      model_name ← lift (segments ← split_slash model_id;
                         getitem_last segments);
      text ← lift (page_content_of docs_transformed);
      num_tokens ← call (CountMistral text model_name)
                        (num_tokens_mistral text model_name);
      chunks ← lift (slice_chunks text num_tokens context_window);
      mret (Some chunks)
  | Some (ChatModel ChatOllama _) =>
      emit (Printed "Ollama model processing not yet implemented.");;
      mret None
  | Some (ChatModel OtherModel _) | None =>
      size ← lift (shrink_chunk_size (default 4096 (chunk_size self)));
      let text := match docs_transformed with
                  | PDocument page_content => PStr page_content
                  | other => other
                  end in
      chunks ← call (Semchunk text size) (chunk text size);
      mret (Some chunks)
  end.

(** Lines 128-130: [state.update({self.output[0]: chunks}); return state].
    The key of the dict display is evaluated before its value; reading a
    local that was never assigned raises [UnboundLocalError]. *)
Definition store_chunks (state : gmap string pyobj)
    (chunks : option (list string)) : result (gmap string pyobj) :=
  key ← getitem_first (output self);
  value ← match chunks with
          | Some cs => Ok (PList (PStr <$> cs))
          | None => Raise UnboundLocalError
          end;
  Ok (<[key := value]> state).

(** Lines 81-130: everything after [context_window] is bound. *)
Definition execute_from (state : gmap string pyobj)
    (docs_transformed context_window : pyobj) : run (gmap string pyobj) :=
  chunks ← dispatch docs_transformed context_window;
  lift (store_chunks state chunks).

(** Lines 67-77: the input document. *)
Definition load_document (state : gmap string pyobj) : run pyobj :=
  emit (LogInfo ("--- Executing " +:+ node_name self +:+ " Node ---"));;
  input_keys ← call GetInputKeys (get_input_keys state);
  input_data ← lift (mapM (fun key => match state !! key with
                                      | Some v => Ok v
                                      | None => Raise KeyError
                                      end) input_keys);
  first ← lift (getitem_first input_data);
  if parse_html self then
    transformed ← call Html2Text (transform_documents first);
    lift (getitem0 transformed)
  else lift (getitem0 first).

Definition execute (state : gmap string pyobj) : run (gmap string pyobj) :=
  docs_transformed ← load_document state;
  context_window ← lift (context_window_expr (llm_model self));
  execute_from state docs_transformed context_window.

End Node.

(** ** The constructor *)

(** The dictionary [node_config], by the keys the node reads.  [None] is a
    key that is absent (for "llm_model" also one bound to Python's [None]:
    [dict.get] gives [None] for both). *)
Record node_config : Type := NodeConfig {
  cfg_verbose : option bool;
  cfg_parse_html : option bool;
  cfg_llm_model : option chat_model;
  cfg_chunk_size : option Z
}.

(** Lines 33-49: [__init__(self, input, output, node_config=None,
    node_name="Parse")].  [base_init] is the outcome of
    [super().__init__(node_name, "node", input, output, 1, node_config)],
    which keeps [node_name], [output] and [node_config] on the node.  The
    first two attributes test [node_config is None]; line 49 calls
    [node_config.get] without the test. *)
Definition init (base_init : result unit) (input : string)
    (output : list string) (config : option node_config)
    (node_name : string) : result ParseNode :=
  _ ← base_init;
  let verbose := match config with
                 | None => false
                 | Some c => default false (cfg_verbose c)
                 end in
  let parse_html := match config with
                    | None => true
                    | Some c => default true (cfg_parse_html c)
                    end in
  llm_model ← match config with
              | None => Raise AttributeError
              | Some c => Ok (cfg_llm_model c)
              end;
  Ok {| node_name := node_name; output := output; verbose := verbose;
        parse_html := parse_html; llm_model := llm_model;
        chunk_size := config ≫= cfg_chunk_size |}.

(** The first line of [execute]'s log. *)
Definition banner (self : ParseNode) : event :=
  LogInfo ("--- Executing " +:+ node_name self +:+ " Node ---").

(** The event a branch of the dispatch may emit: its own counter, the
    message of the Ollama branch, or semchunk. *)
Definition own_event (c : model_class) (ev : event) : bool :=
  match c, ev with
  | ChatOpenAI, CountOpenAI _ => true
  | ChatMistralAI, CountMistral _ _ => true
  | ChatOllama, Printed _ => true
  | OtherModel, Semchunk _ _ => true
  | _, _ => false
  end.

(** The class the [isinstance] chain sees: [None] is of no class. *)
Definition class_of (m : option chat_model) : model_class :=
  from_option class OtherModel m.

(** The character [c] occurs in [s]. *)
Definition occurs (c : ascii) (s : string) : Prop :=
  In c (list_ascii_of_string s).

(** ** Notions the statements use *)

(** The concatenation, in order, of a chunk sequence. *)
Definition join (cs : list string) : string := fold_right String.append "" cs.

(** [len(s)]. *)
Definition str_len (s : string) : Z := Z.of_nat (String.length s).

(** The ceiling of [t / w]. *)
Definition ceil_div (t w : Z) : Z := - ((- t) / w).

(** A trace in which no token was counted and no text was split. *)
Definition no_chunking (tr : list event) : Prop :=
  Forall (fun ev => chunking_event ev = false) tr.

(** The chunk sequence a returned state holds under the node's first
    output key. *)
Definition returned_chunks (self : ParseNode) (st : gmap string pyobj)
    : option (list pyobj) :=
  match output self with
  | key :: _ => match st !! key with
                | Some (PList items) => Some items
                | _ => None
                end
  | [] => None
  end.

(** The exception line 79 ends in: the attribute lookups fail on a missing
    model or a name that is no string, the product fails on a string. *)
Definition window_error (m : option chat_model) : exn :=
  match m with
  | Some (ChatModel _ (PStr _)) => TypeError
  | _ => AttributeError
  end.

Definition is_digit (c : ascii) : bool :=
  (48 <=? nat_of_ascii c)%nat && (nat_of_ascii c <=? 57)%nat.

(** A segment that reads as a positive decimal number. *)
Definition numeric (s : string) : bool :=
  match list_ascii_of_string s with
  | [] => false
  | digits =>
      forallb is_digit digits &&
      existsb (fun c => negb (Ascii.eqb c "0")) digits
  end.

(** A name as the specification wants it: a string with a "/" separator
    and a numeric last segment. *)
Definition well_formed_name (m : option chat_model) : bool :=
  match m with
  | Some (ChatModel _ (PStr s)) =>
      match str_split "/" s with
      | _ :: _ :: _ as segments => from_option numeric false (last segments)
      | _ => false
      end
  | _ => false
  end.

(** An exception class that Python itself defines. *)
Definition builtin (e : exn) : bool :=
  match e with
  | OtherError _ => false
  | _ => true
  end.

(** The model, or a string name on it, is missing. *)
Definition missing_name (m : option chat_model) : bool :=
  match m with
  | Some (ChatModel _ (PStr _)) => false
  | _ => true
  end.

(** ** Sample collaborators and nodes, for the concrete runs *)

Module Fixture.

Definition state (text : string) : gmap string pyobj :=
  {[ "doc" := PList [PDocument text] ]}.

Definition input_keys (_ : gmap string pyobj) : result (list string) :=
  Ok ["doc"%string].

Definition html2text (docs : pyobj) : result pyobj := Ok docs.

Definition tokens (n : Z) (_ : string) : result Z := Ok n.

Definition tokens_mistral (n : Z) (_ _ : string) : result Z := Ok n.

Definition whole_text (text : pyobj) (_ : Z) : result (list string) :=
  match text with
  | PStr s => Ok [s]
  | _ => Raise TypeError
  end.

Definition node (c : model_class) (model_name : pyobj) : ParseNode :=
  {| node_name := "Parse"; output := ["parsed_doc"%string]; verbose := false;
     parse_html := true; llm_model := Some (ChatModel c model_name);
     chunk_size := None |}.

(** [execute] and its continuation with the sample collaborators, the token
    counters reporting [n] tokens. *)
Definition run_execute (n : Z) (self : ParseNode) (text : string)
    : run (gmap string pyobj) :=
  execute input_keys html2text (tokens n) (tokens_mistral n) whole_text
    self (state text).

Definition run_from (n : Z) (self : ParseNode) (text : string)
    (context_window : pyobj) : run (gmap string pyobj) :=
  execute_from (tokens n) (tokens_mistral n) whole_text self (state text)
    (PDocument text) context_window.

End Fixture.

(** Line 71: [[state[key] for key in input_keys]]. *)
Definition read_inputs (state : gmap string pyobj) (keys : list string)
    : result (list pyobj) :=
  mapM (fun key => match state !! key with
                   | Some v => Ok v
                   | None => Raise KeyError
                   end) keys.

(** The segments after the first one, each behind its separator. *)
Fixpoint glue (sep : ascii) (segs : list string) : string :=
  match segs with
  | [] => ""
  | x :: rest => String sep (x +:+ glue sep rest)
  end.

(** Line 115 gives [c - 500] on the size [c]. *)
Definition budget_is_reserve (c : Z) : bool :=
  match shrink_chunk_size c with
  | Ok b => b =? c - 500
  | Raise _ => false
  end.

(** More sample inputs: a state with two input keys, a loader that asks
    for both, and a node that skips the HTML normaliser. *)
Module Inputs.

Definition two_keys (_ : gmap string pyobj) : result (list string) :=
  Ok ["doc"; "url"]%string.

Definition no_keys (_ : gmap string pyobj) : result (list string) := Ok [].

Definition state_with (doc url : pyobj) : gmap string pyobj :=
  <["url" := url]> {[ "doc" := doc ]}.

Definition empty_result (_ : pyobj) : result pyobj := Ok (PList []).


Definition raw_node (c : model_class) (model_name : pyobj) : ParseNode :=
  {| node_name := "Parse"; output := ["parsed_doc"%string]; verbose := false;
     parse_html := false; llm_model := Some (ChatModel c model_name);
     chunk_size := None |}.

Definition sized_node (size : Z) : ParseNode :=
  {| node_name := "Parse"; output := ["parsed_doc"%string]; verbose := false;
     parse_html := true; llm_model := None; chunk_size := Some size |}.

Definition silent_node (c : model_class) : ParseNode :=
  {| node_name := "Parse"; output := []; verbose := false;
     parse_html := true; llm_model := Some (ChatModel c (PStr "m/1"));
     chunk_size := None |}.

Definition config_with (m : option chat_model) : node_config :=
  {| cfg_verbose := None; cfg_parse_html := None; cfg_llm_model := m;
     cfg_chunk_size := None |}.

End Inputs.

(** * Properties *)

(** ** The value layer on concrete inputs *)

Example str_split_segments :
  str_split "/" "openai/gpt/100" = ["openai"; "gpt"; "100"]%string ∧
  str_split "/" "gpt-4o" = ["gpt-4o"%string] ∧
  str_split "/" "" = [""%string] ∧
  str_split "/" "a//b/" = ["a"; ""; "b"; ""]%string.
Proof. repeat split; reflexivity. Qed.

Example str_slice_indices :
  str_slice "hello world" 4 8 = "o wo" ∧
  str_slice "hello" 4 100 = "o" ∧
  str_slice "hello" 7 9 = "" ∧
  str_slice "hello" (-3) (-1) = "ll" ∧
  str_slice "hello" 3 1 = "".
Proof. repeat split; reflexivity. Qed.

Example str_times_number :
  mul (PStr "ab") (PInt 2) = Ok (PStr "abab") ∧
  mul (PStr "ab") (PInt (-1)) = Ok (PStr "") ∧
  mul (PStr "ab") (PFloat 2) = Raise TypeError ∧
  mul (PInt 100) (PFloat headroom) = Ok (PFloat 90).
Proof. repeat split; vm_compute; reflexivity. Qed.

Example float_conversions :
  float_of_int (2 ^ 1024) = Raise OverflowError ∧
  float_of_int 4096 = Ok 4096%float ∧
  int_of_float (-3.5)%float = Ok (-3) ∧
  shrink_chunk_size 4096 = Ok 3596 ∧
  shrink_chunk_size 400 = Ok (-100).
Proof. repeat split; vm_compute; reflexivity. Qed.

(** ** The run monad *)

Section RunLemmas.
Context {A B : Type}.
Implicit Types (m : run A) (f : A → run B).

Lemma outcome_bind m f :
  outcome (m ≫= f) =
  match outcome m with Ok a => outcome (f a) | Raise e => Raise e end.
Proof. unfold mbind, run_bind. destruct (outcome m); reflexivity. Qed.

Lemma trace_bind m f :
  trace (m ≫= f) =
  match outcome m with
  | Ok a => trace m ++ trace (f a)
  | Raise _ => trace m
  end.
Proof. unfold mbind, run_bind. destruct (outcome m); reflexivity. Qed.

Lemma bind_ok_inv m f b :
  outcome (m ≫= f) = Ok b → ∃ a, outcome m = Ok a ∧ outcome (f a) = Ok b.
Proof.
  rewrite outcome_bind. destruct (outcome m) as [a|e]; [eauto | discriminate].
Qed.

Lemma bind_raise m f e : outcome m = Raise e → m ≫= f = Run (trace m) (Raise e).
Proof. intros H. unfold mbind, run_bind. rewrite H. reflexivity. Qed.

Lemma no_chunking_bind m f :
  no_chunking (trace m) → (∀ a, no_chunking (trace (f a))) →
  no_chunking (trace (m ≫= f)).
Proof.
  intros Hm Hf. rewrite trace_bind. destruct (outcome m); [|exact Hm].
  apply Forall_app. split; [exact Hm | apply Hf].
Qed.
End RunLemmas.

Lemma no_chunking_lift {A} (r : result A) : no_chunking (trace (lift r)).
Proof. constructor. Qed.

(** ** Strings and slices *)

Lemma length_list_ascii (s : string) :
  length (list_ascii_of_string s) = String.length s.
Proof. induction s as [|c s IH]; simpl; [reflexivity | now rewrite IH]. Qed.

Lemma append_cons (c : ascii) (s t : string) :
  String.append (String c s) t = String c (String.append s t).
Proof. reflexivity. Qed.

Lemma string_of_list_ascii_app (a b : list ascii) :
  string_of_list_ascii (a ++ b) =
  String.append (string_of_list_ascii a) (string_of_list_ascii b).
Proof.
  induction a as [|c a IH]; [reflexivity|].
  cbn [app string_of_list_ascii]. now rewrite append_cons, IH.
Qed.

Lemma string_of_list_ascii_inj (a b : list ascii) :
  string_of_list_ascii a = string_of_list_ascii b → a = b.
Proof.
  intros H. rewrite <- (list_ascii_of_string_of_list_ascii a),
    <- (list_ascii_of_string_of_list_ascii b). now rewrite H.
Qed.

Lemma append_empty_r (s : string) : String.append s "" = s.
Proof. induction s as [|c s IH]; [reflexivity | now rewrite append_cons, IH]. Qed.

Lemma join_app (xs ys : list string) :
  join (xs ++ ys) = String.append (join xs) (join ys).
Proof.
  induction xs as [|x xs IH]; [reflexivity|].
  cbn [app join fold_right]. fold (join (xs ++ ys)) (join xs). rewrite IH.
  clear IH. induction x as [|c x IHx]; [reflexivity | now rewrite !append_cons, IHx].
Qed.

(** For a positive width, slice [i] is [w] characters from offset [i * w],
    as far as the text goes. *)
Lemma str_slice_window (s : string) (w : Z) (i : nat) :
  0 < w →
  str_slice s (Z.of_nat i * w) ((Z.of_nat i + 1) * w) =
  string_of_list_ascii
    (take (Z.to_nat w) (drop (i * Z.to_nat w) (list_ascii_of_string s))).
Proof.
  intros Hw. unfold str_slice, clamp_index.
  set (l := list_ascii_of_string s).
  assert (Hlo : (Z.of_nat i * w <? 0) = false) by (apply Z.ltb_ge; nia).
  assert (Hhi : ((Z.of_nat i + 1) * w <? 0) = false) by (apply Z.ltb_ge; nia).
  rewrite Hlo, Hhi. f_equal.
  destruct (Z.le_gt_cases (Z.of_nat (length l)) (Z.of_nat i * w)) as [Hge|Hlt].
  - rewrite (drop_ge l (i * Z.to_nat w)) by nia.
    rewrite (drop_ge l) by lia. now rewrite !take_nil.
  - replace (Z.to_nat (Z.min (Z.of_nat i * w) (Z.of_nat (length l))))
      with (i * Z.to_nat w)%nat by nia.
    destruct (Z.le_gt_cases ((Z.of_nat i + 1) * w) (Z.of_nat (length l)))
      as [Hfit|Hcut].
    + f_equal. nia.
    + rewrite !take_ge; [reflexivity | |]; rewrite length_drop; nia.
Qed.

Lemma fold_left_snoc {X Y} (f : X → Y) (xs : list X) (init : list Y) :
  fold_left (fun (acc : list Y) (x : X) => (acc ++ [f x])%list) xs init
  = init ++ map f xs.
Proof.
  revert init. induction xs as [|x xs IH]; intros init; simpl.
  - now rewrite app_nil_r.
  - rewrite IH. now rewrite <- app_assoc.
Qed.

Lemma num_chunks_ceil (t w : Z) :
  w ≠ 0 →
  (if negb (t mod w =? 0) then t / w + 1 else t / w) = ceil_div t w.
Proof.
  intros Hw. unfold ceil_div. destruct (Z.eqb_spec (t mod w) 0) as [Hz|Hnz]; simpl.
  - rewrite Z.div_opp_l_z by assumption. lia.
  - rewrite Z.div_opp_l_nz by assumption. lia.
Qed.

Lemma ceil_div_bounds (t w : Z) :
  0 < w → (ceil_div t w - 1) * w < t ≤ ceil_div t w * w.
Proof.
  intros Hw. unfold ceil_div.
  pose proof (Z.div_mod (- t) w ltac:(lia)) as Hdm.
  pose proof (Z.mod_pos_bound (- t) w Hw) as Hb. nia.
Qed.

Lemma ceil_div_nonneg (t w : Z) : 0 < w → 0 ≤ t → 0 ≤ ceil_div t w.
Proof. intros Hw Ht. pose proof (ceil_div_bounds t w Hw). nia. Qed.

(** The slicing loop on an integer width, in closed form. *)
Lemma slice_chunks_int (text : string) (t w : Z) :
  0 < w →
  slice_chunks text t (PInt w) =
  Ok (map (fun i : nat =>
             string_of_list_ascii
               (take (Z.to_nat w)
                  (drop (i * Z.to_nat w) (list_ascii_of_string text))))
          (seq 0 (Z.to_nat (ceil_div t w)))).
Proof.
  intros Hw. unfold slice_chunks.
  destruct (Z.eqb_spec w 0) as [->|Hne]; [lia|].
  rewrite num_chunks_ceil by assumption. f_equal.
  rewrite fold_left_snoc. simpl. unfold range. rewrite map_map.
  apply map_ext. intros i. apply str_slice_window. assumption.
Qed.

Lemma join_windows (l : list ascii) (w n : nat) :
  join (map (fun i : nat => string_of_list_ascii (take w (drop (i * w) l)))
          (seq 0 n))
  = string_of_list_ascii (take (n * w) l).
Proof.
  induction n as [|n IH].
  - reflexivity.
  - rewrite seq_S, map_app, join_app, IH. simpl.
    rewrite append_empty_r, <- string_of_list_ascii_app, take_take_drop.
    f_equal. f_equal. lia.
Qed.

(** ** The window expression of line 79 *)

Lemma str_split_last (sep : ascii) (s : string) :
  ∃ seg, getitem_last (str_split sep s) = Ok seg.
Proof.
  unfold getitem_last, str_split. destruct (split_pair sep s) as [seg segs].
  destruct (last (seg :: segs)) as [a|] eqn:Hl; [eauto|].
  apply last_None in Hl. discriminate.
Qed.

Lemma context_window_expr_str (c : model_class) (s : string) :
  context_window_expr (Some (ChatModel c (PStr s))) = Raise TypeError.
Proof.
  unfold context_window_expr. cbn.
  destruct (str_split_last "/" s) as [seg ->]. reflexivity.
Qed.

Lemma context_window_expr_error (m : option chat_model) :
  context_window_expr m = Raise (window_error m).
Proof.
  destruct m as [[c nm]|]; [|reflexivity].
  destruct nm; try reflexivity. apply context_window_expr_str.
Qed.

(** ** The whole call *)

Section Execute.

Variable get_input_keys : gmap string pyobj → result (list string).
Variable transform_documents : pyobj → result pyobj.
Variable num_tokens_openai : string → result Z.
Variable num_tokens_mistral : string → string → result Z.
Variable chunk : pyobj → Z → result (list string).
Variable self : ParseNode.

Abbreviation load := (load_document get_input_keys transform_documents self).
Abbreviation exec :=
  (execute get_input_keys transform_documents num_tokens_openai
     num_tokens_mistral chunk self).
Abbreviation exec_from :=
  (execute_from num_tokens_openai num_tokens_mistral chunk self).
Abbreviation dispatch' := (dispatch num_tokens_openai num_tokens_mistral chunk self).

Lemma load_document_no_chunking (state : gmap string pyobj) :
  no_chunking (trace (load state)).
Proof.
  unfold load_document.
  apply no_chunking_bind; [repeat constructor|]. intros _.
  apply no_chunking_bind; [repeat constructor|]. intros input_keys.
  apply no_chunking_bind; [apply no_chunking_lift|]. intros input_data.
  apply no_chunking_bind; [apply no_chunking_lift|]. intros first.
  destruct (parse_html self); [|apply no_chunking_lift].
  apply no_chunking_bind; [repeat constructor|]. intros transformed.
  apply no_chunking_lift.
Qed.

(** [execute] ends where line 79 ends: with the loader's exception when the
    document could not be loaded, with the window expression's otherwise;
    nothing after line 79 runs. *)
Lemma execute_stops_at_window (state : gmap string pyobj) :
  exec state =
  Run (trace (load state))
      (match outcome (load state) with
       | Ok _ => Raise (window_error (llm_model self))
       | Raise e => Raise e
       end).
Proof.
  unfold execute. destruct (outcome (load state)) as [doc|e] eqn:Hload.
  - unfold mbind at 1, run_bind. rewrite Hload.
    rewrite context_window_expr_error. cbn. now rewrite app_nil_r.
  - now apply bind_raise.
Qed.

Lemma execute_raises (state : gmap string pyobj) :
  ∃ e, outcome (exec state) = Raise e.
Proof.
  pose proof (execute_stops_at_window state) as E.
  destruct (outcome (load state)); rewrite E; eexists; reflexivity.
Qed.

Lemma execute_no_chunking (state : gmap string pyobj) :
  no_chunking (trace (exec state)).
Proof. rewrite execute_stops_at_window. apply load_document_no_chunking. Qed.

Lemma store_chunks_ok (state st' : gmap string pyobj)
    (chunks : option (list string)) :
  store_chunks self state chunks = Ok st' →
  ∃ key rest cs, output self = key :: rest ∧ chunks = Some cs ∧
                 st' = <[key := PList (PStr <$> cs)]> state.
Proof.
  unfold store_chunks. destruct (output self) as [|key rest]; [discriminate|].
  destruct chunks as [cs|]; [|discriminate]. cbn. intros [= <-].
  exists key, rest, cs. auto.
Qed.

Lemma execute_from_ok (state st' : gmap string pyobj) (doc cw : pyobj) :
  outcome (exec_from state doc cw) = Ok st' →
  ∃ key rest cs, output self = key :: rest ∧
                 outcome (dispatch' doc cw) = Ok (Some cs) ∧
                 st' = <[key := PList (PStr <$> cs)]> state.
Proof.
  unfold execute_from. intros H. apply bind_ok_inv in H as (chunks & Hd & Hs).
  cbn in Hs. apply store_chunks_ok in Hs as (key & rest & cs & Ho & -> & ->).
  eauto 6.
Qed.

(** The Ollama branch assigns nothing to [chunks]. *)
Lemma dispatch_ollama (doc cw : pyobj) :
  class <$> llm_model self = Some ChatOllama →
  dispatch' doc cw =
  Run [Printed "Ollama model processing not yet implemented."] (Ok None).
Proof.
  intros H. unfold dispatch. destruct (llm_model self) as [[c nm]|]; [|discriminate].
  cbn in H. injection H as ->. reflexivity.
Qed.

(** The OpenAI and Mistral branches store what the slicing loop returns. *)
Lemma dispatch_openai (model_id : pyobj) (text : string) (t : Z) (cw : pyobj) :
  llm_model self = Some (ChatModel ChatOpenAI model_id) →
  num_tokens_openai text = Ok t →
  dispatch' (PDocument text) cw =
  Run [CountOpenAI text]
      (match slice_chunks text t cw with
       | Ok cs => Ok (Some cs)
       | Raise e => Raise e
       end).
Proof.
  intros Hm Ht. unfold dispatch. rewrite Hm. cbn. rewrite Ht. cbn.
  destruct (slice_chunks text t cw); reflexivity.
Qed.

Lemma dispatch_mistral (model_id text : string) (t : Z) (cw : pyobj) :
  llm_model self = Some (ChatModel ChatMistralAI (PStr model_id)) →
  (∀ segment, getitem_last (str_split "/" model_id) = Ok segment →
              num_tokens_mistral text segment = Ok t) →
  ∃ segment,
    getitem_last (str_split "/" model_id) = Ok segment ∧
    dispatch' (PDocument text) cw =
    Run [CountMistral text segment]
        (match slice_chunks text t cw with
         | Ok cs => Ok (Some cs)
         | Raise e => Raise e
         end).
Proof.
  intros Hm Ht. destruct (str_split_last "/" model_id) as [segment Hseg].
  exists segment. split; [exact Hseg|].
  unfold dispatch. rewrite Hm. cbn. rewrite Hseg. cbn.
  rewrite (Ht segment Hseg). cbn.
  destruct (slice_chunks text t cw); reflexivity.
Qed.

End Execute.

(** ** The slicing loop on an integer width *)

Lemma take_min_length {X} (l : list X) (k : Z) :
  0 ≤ k →
  take (Z.to_nat (Z.min k (Z.of_nat (length l)) - 0)) (drop (Z.to_nat 0) l)
  = take (Z.to_nat k) l.
Proof.
  intros Hk. rewrite Z.sub_0_r. change (Z.to_nat 0) with 0%nat. rewrite drop_0.
  destruct (Z.le_gt_cases k (Z.of_nat (length l))) as [Hle|Hgt].
  - now rewrite Z.min_l by assumption.
  - rewrite Z.min_r by lia. rewrite !take_ge; [reflexivity | lia | lia].
Qed.

(** X20: on an integer width [w > 0] and a token count [t >= 0], the
    slicing loop returns slices whose concatenation, in order, is the
    prefix [text[0 : ceil(t / w) * w]] of the text; it is the whole text
    exactly when the text is no longer than [ceil(t / w) * w] characters. *)
Theorem slice_chunks_join_prefix (text : string) (t w : Z) :
  0 < w → 0 ≤ t →
  ∃ cs, slice_chunks text t (PInt w) = Ok cs ∧
        join cs = str_slice text 0 (ceil_div t w * w) ∧
        (join cs = text ↔ str_len text ≤ ceil_div t w * w).
Proof.
  intros Hw Ht. pose proof (ceil_div_nonneg t w Hw Ht) as Hn.
  rewrite slice_chunks_int by assumption. eexists. split; [reflexivity|].
  rewrite join_windows.
  assert (Hk : (Z.to_nat (ceil_div t w) * Z.to_nat w)%nat
               = Z.to_nat (ceil_div t w * w)) by nia.
  rewrite Hk. split.
  - unfold str_slice, clamp_index.
    replace (0 <? 0) with false by reflexivity.
    replace (ceil_div t w * w <? 0) with false by (symmetry; apply Z.ltb_ge; nia).
    rewrite (Z.min_l 0) by lia. now rewrite take_min_length by nia.
  - unfold str_len. rewrite <- length_list_ascii. split.
    + intros H. rewrite <- (string_of_list_ascii_of_string text) in H at 2.
      apply string_of_list_ascii_inj in H. apply (f_equal length) in H.
      rewrite length_take in H. lia.
    + intros H. rewrite take_ge by lia. apply string_of_list_ascii_of_string.
Qed.

(** Two tokens, width 4, on "hello world". *)
Lemma slice_chunks_join_prefix_witness :
  ∃ cs, slice_chunks "hello world" 2 (PInt 4) = Ok cs ∧
        join cs = str_slice "hello world" 0 (ceil_div 2 4 * 4) ∧
        (join cs = "hello world" ↔ str_len "hello world" ≤ ceil_div 2 4 * 4).
Proof. apply (slice_chunks_join_prefix "hello world" 2 4); lia. Defined.

(** C1: a call on an OpenAI or a Mistral model returns no chunk sequence
    whose concatenation could be the text.  Whatever the model's class, its
    name, the document and the token count reported, the call raises
    [TypeError] on line 79, after the log line, the key lookup and the HTML
    normaliser and before a token is counted; so it does on "hello world"
    with the names "openai/4" and "mistralai/4". *)
Theorem concatenation_call_raises :
  (∀ (c : model_class) (s text : string) (n : Z),
     Fixture.run_execute n (Fixture.node c (PStr s)) text
     = Run [LogInfo "--- Executing Parse Node ---"; GetInputKeys; Html2Text]
           (Raise TypeError)) ∧
  Fixture.run_execute 2 (Fixture.node ChatOpenAI (PStr "openai/4"))
    "hello world"
  = Run [LogInfo "--- Executing Parse Node ---"; GetInputKeys; Html2Text]
        (Raise TypeError) ∧
  Fixture.run_execute 2 (Fixture.node ChatMistralAI (PStr "mistralai/4"))
    "hello world"
  = Run [LogInfo "--- Executing Parse Node ---"; GetInputKeys; Html2Text]
        (Raise TypeError) ∧
  (∀ (c : model_class) (s text : string) (n : Z),
     ¬ ∃ (st' : gmap string pyobj) (cs : list string),
         outcome (Fixture.run_execute n (Fixture.node c (PStr s)) text)
           = Ok st' ∧
         returned_chunks (Fixture.node c (PStr s)) st' = Some (PStr <$> cs) ∧
         join cs = text).
Proof.
  assert (H : ∀ (c : model_class) (s text : string) (n : Z),
            Fixture.run_execute n (Fixture.node c (PStr s)) text
            = Run [LogInfo "--- Executing Parse Node ---"; GetInputKeys;
                   Html2Text] (Raise TypeError)).
  { intros c s text n. unfold Fixture.run_execute.
    rewrite execute_stops_at_window. reflexivity. }
  split; [exact H|]. split; [apply H|]. split; [apply H|].
  intros c s text n (st' & cs & Hok & _). rewrite H in Hok. discriminate.
Qed.

(** X21: on an integer width [w > 0] the slicing loop returns
    [ceil(t / w)] slices (none when that is negative), slice [i] being
    [text[i * w : (i + 1) * w]]; a slice is empty exactly when its start
    offset is at or beyond the end of the text, and it is kept. *)
Theorem slice_chunks_keeps_every_slice (text : string) (t w : Z) :
  0 < w →
  ∃ cs, slice_chunks text t (PInt w) = Ok cs ∧
        length cs = Z.to_nat (ceil_div t w) ∧
        ∀ (i : nat) (c : string), cs !! i = Some c →
          c = str_slice text (Z.of_nat i * w) ((Z.of_nat i + 1) * w) ∧
          (c = "" ↔ str_len text ≤ Z.of_nat i * w).
Proof.
  intros Hw. rewrite slice_chunks_int by assumption. eexists.
  split; [reflexivity|]. split; [now rewrite length_map, length_seq|].
  intros i c Hi.
  change (map ?f ?l) with (f <$> l) in Hi. rewrite list_lookup_fmap in Hi.
  destruct (seq 0 (Z.to_nat (ceil_div t w)) !! i) as [j|] eqn:Hj; [|discriminate].
  apply lookup_seq in Hj as [-> _]. cbn in Hi. injection Hi as <-. split.
  - symmetry. now apply str_slice_window.
  - unfold str_len. rewrite <- length_list_ascii.
    set (l := list_ascii_of_string text). split.
    + intros H. change EmptyString with (string_of_list_ascii []) in H.
      apply string_of_list_ascii_inj, take_nil_inv in H as [H|H]; [lia|].
      apply (f_equal length) in H. rewrite length_drop in H. cbn in H. nia.
    + intros H. rewrite drop_ge by nia. now rewrite take_nil.
Qed.

(** Five tokens, width 2, on "ab". *)
Lemma slice_chunks_keeps_every_slice_witness :
  ∃ cs, slice_chunks "ab" 5 (PInt 2) = Ok cs ∧
        length cs = Z.to_nat (ceil_div 5 2) ∧
        ∀ (i : nat) (c : string), cs !! i = Some c →
          c = str_slice "ab" (Z.of_nat i * 2) ((Z.of_nat i + 1) * 2) ∧
          (c = "" ↔ str_len "ab" ≤ Z.of_nat i * 2).
Proof. apply (slice_chunks_keeps_every_slice "ab" 5 2); lia. Defined.

(** C6: a call returns no sequence of non-empty chunks, for it returns
    nothing: whatever the node, the state and the collaborators, [execute]
    ends in an exception.  On the text "ab", with five tokens reported and
    the name "openai/2", it raises [TypeError] on line 79 before a token is
    counted, on a model of each class. *)
Theorem nonempty_chunks_call_raises :
  (∀ (get_input_keys : gmap string pyobj → result (list string))
     (transform_documents : pyobj → result pyobj)
     (num_tokens_openai : string → result Z)
     (num_tokens_mistral : string → string → result Z)
     (chunk : pyobj → Z → result (list string))
     (self : ParseNode) (state : gmap string pyobj),
     ¬ ∃ (st' : gmap string pyobj) (cs : list string),
         outcome (execute get_input_keys transform_documents
                    num_tokens_openai num_tokens_mistral chunk self state)
           = Ok st' ∧
         returned_chunks self st' = Some (PStr <$> cs) ∧
         Forall (fun c : string => c ≠ ""%string) cs) ∧
  (∀ c : model_class,
     Fixture.run_execute 5 (Fixture.node c (PStr "openai/2")) "ab"
     = Run [LogInfo "--- Executing Parse Node ---"; GetInputKeys; Html2Text]
           (Raise TypeError)).
Proof.
  split; [|intros []; vm_compute; reflexivity].
  intros get_input_keys transform_documents num_tokens_openai
    num_tokens_mistral chunk self state (st' & cs & Hok & _).
  destruct (execute_raises get_input_keys transform_documents
              num_tokens_openai num_tokens_mistral chunk self state) as [e He].
  rewrite He in Hok. discriminate.
Qed.

(** ** What the call does *)

(** C2: on a name whose last segment is a number the budget is not
    computed: the segment is a [str], and its product with [0.9] raises
    [TypeError], whatever the model's class and whatever the name. *)
Theorem window_budget_raises (c : model_class) (s : string) :
  context_window_expr (Some (ChatModel c (PStr s))) = Raise TypeError ∧
  context_window_expr (Some (ChatModel ChatOpenAI (PStr "openai/100")))
    = Raise TypeError ∧
  mul (PStr "100") (PFloat headroom) = Raise TypeError.
Proof.
  split; [apply context_window_expr_str|]. split; reflexivity.
Qed.

(** C3: the specification's example (window 100, 250 tokens) gives no
    chunk count: the call raises [TypeError] before a token is counted; the
    loop raises [TypeError] on the float budget 90.0 as well, at [range];
    only on the integer 90 does it make the three slices. *)
Theorem chunk_count_example_raises :
  Fixture.run_execute 250 (Fixture.node ChatOpenAI (PStr "openai/100")) "some text"
    = Run [LogInfo "--- Executing Parse Node ---"; GetInputKeys; Html2Text]
          (Raise TypeError) ∧
  Fixture.run_from 250 (Fixture.node ChatOpenAI (PStr "openai/100")) "some text"
      (PFloat 90)
    = Run [CountOpenAI "some text"] (Raise TypeError) ∧
  slice_chunks "some text" 250 (PInt 90) = Ok ["some text"; ""; ""]%string.
Proof. repeat split; vm_compute; reflexivity. Qed.

(** C4: a call on an Ollama model does not complete.  It raises on line 79
    like every call; and from any value of [context_window] the branch
    prints its message, leaves [chunks] unassigned, and line 128 raises
    ([IndexError] when there is no output key, [UnboundLocalError]
    otherwise). *)
Theorem ollama_call_raises
    (get_input_keys : gmap string pyobj → result (list string))
    (transform_documents : pyobj → result pyobj)
    (num_tokens_openai : string → result Z)
    (num_tokens_mistral : string → string → result Z)
    (chunk : pyobj → Z → result (list string))
    (self : ParseNode) (state : gmap string pyobj) :
  class <$> llm_model self = Some ChatOllama →
  (∃ e, outcome (execute get_input_keys transform_documents num_tokens_openai
                   num_tokens_mistral chunk self state) = Raise e) ∧
  ∀ doc cw : pyobj,
    execute_from num_tokens_openai num_tokens_mistral chunk self state doc cw
    = Run [Printed "Ollama model processing not yet implemented."]
          (Raise (match output self with
                  | [] => IndexError
                  | _ :: _ => UnboundLocalError
                  end)).
Proof.
  intros Hc. split; [apply execute_raises|]. intros doc cw.
  unfold execute_from. rewrite (dispatch_ollama _ _ _ _ _ _ Hc).
  unfold store_chunks. destruct (output self); reflexivity.
Qed.

(** An Ollama model named "ollama/llama3", one output key. *)
Lemma ollama_call_raises_witness :
  (∃ e, outcome (Fixture.run_execute 3 (Fixture.node ChatOllama (PStr "ollama/llama3"))
                   "hello world") = Raise e) ∧
  ∀ doc cw : pyobj,
    execute_from (Fixture.tokens 3) (Fixture.tokens_mistral 3)
      Fixture.whole_text (Fixture.node ChatOllama (PStr "ollama/llama3"))
      (Fixture.state "hello world") doc cw
    = Run [Printed "Ollama model processing not yet implemented."]
          (Raise UnboundLocalError).
Proof.
  apply (ollama_call_raises Fixture.input_keys Fixture.html2text
           (Fixture.tokens 3) (Fixture.tokens_mistral 3) Fixture.whole_text
           (Fixture.node ChatOllama (PStr "ollama/llama3"))
           (Fixture.state "hello world")).
  reflexivity.
Defined.

(** C5, as amended: when the model's name is missing or malformed and the
    document was loaded, the call raises on line 79, before any token is
    counted or any text split; the exception is one of Python's built-in
    ones, never a ConfigurationError, and it is [AttributeError] when the
    model or its name is missing. *)
Theorem malformed_name_raises_builtin
    (get_input_keys : gmap string pyobj → result (list string))
    (transform_documents : pyobj → result pyobj)
    (num_tokens_openai : string → result Z)
    (num_tokens_mistral : string → string → result Z)
    (chunk : pyobj → Z → result (list string))
    (self : ParseNode) (state : gmap string pyobj) (doc : pyobj) :
  well_formed_name (llm_model self) = false →
  outcome (load_document get_input_keys transform_documents self state)
    = Ok doc →
  ∃ e : exn,
    execute get_input_keys transform_documents num_tokens_openai
      num_tokens_mistral chunk self state
    = Run (trace (load_document get_input_keys transform_documents self state))
          (Raise e) ∧
    builtin e = true ∧
    (missing_name (llm_model self) = true → e = AttributeError) ∧
    no_chunking (trace (load_document get_input_keys transform_documents
                          self state)).
Proof.
  intros _ Hload. exists (window_error (llm_model self)).
  split; [rewrite execute_stops_at_window; now rewrite Hload|].
  split; [destruct (llm_model self) as [[c []]|]; reflexivity|].
  split; [|apply load_document_no_chunking].
  destruct (llm_model self) as [[c []]|]; try reflexivity. discriminate.
Qed.

(** The name "gpt-4o": no separator, no number. *)
Lemma malformed_name_raises_builtin_witness :
  ∃ e : exn,
    Fixture.run_execute 3 (Fixture.node ChatOpenAI (PStr "gpt-4o"))
      "hello world"
    = Run (trace (load_document Fixture.input_keys Fixture.html2text
                    (Fixture.node ChatOpenAI (PStr "gpt-4o"))
                    (Fixture.state "hello world")))
          (Raise e) ∧
    builtin e = true ∧
    (missing_name (llm_model (Fixture.node ChatOpenAI (PStr "gpt-4o"))) = true →
     e = AttributeError) ∧
    no_chunking (trace (load_document Fixture.input_keys Fixture.html2text
                          (Fixture.node ChatOpenAI (PStr "gpt-4o"))
                          (Fixture.state "hello world"))).
Proof.
  apply (malformed_name_raises_builtin Fixture.input_keys Fixture.html2text
           (Fixture.tokens 3) (Fixture.tokens_mistral 3) Fixture.whole_text
           (Fixture.node ChatOpenAI (PStr "gpt-4o"))
           (Fixture.state "hello world") (PDocument "hello world"));
    reflexivity.
Defined.

(** C5, as stated, fails: on the malformed name "gpt-4o" the exception is a
    [TypeError], not a [ConfigurationError]; so it is, with an
    [AttributeError], when the model has no name. *)
Lemma configuration_error_counterexample :
  outcome (Fixture.run_execute 3 (Fixture.node ChatOpenAI (PStr "gpt-4o"))
             "hello world") = Raise TypeError ∧
  outcome (Fixture.run_execute 3 (Fixture.node ChatOpenAI (PStr "gpt-4o"))
             "hello world") ≠ Raise (OtherError "ConfigurationError") ∧
  outcome (Fixture.run_execute 3 (Fixture.node ChatOpenAI PNone)
             "hello world") = Raise AttributeError.
Proof. repeat split; vm_compute; try reflexivity. discriminate. Qed.

(** C7: a call on a model of no recognised class returns no chunks: it
    raises on line 79 before semchunk is called.  (The budget the branch
    would pass for the default size 4096 is 3596.) *)
Theorem generic_call_raises :
  Fixture.run_execute 3 (Fixture.node OtherModel (PStr "local/8192")) "one two three"
    = Run [LogInfo "--- Executing Parse Node ---"; GetInputKeys; Html2Text]
          (Raise TypeError) ∧
  shrink_chunk_size 4096 = Ok 3596.
Proof. split; vm_compute; reflexivity. Qed.

(** C8: on the empty text the call raises, for every class of model. *)
Theorem empty_text_raises (c : model_class) :
  Fixture.run_execute 0 (Fixture.node c (PStr "provider/4096")) ""
    = Run [LogInfo "--- Executing Parse Node ---"; GetInputKeys; Html2Text]
          (Raise TypeError).
Proof. destruct c; vm_compute; reflexivity. Qed.



(** C10: line 79 runs before the dispatch, for every class of model: when
    the document was loaded and the window expression raises, the call
    raises that exception and nothing of the dispatch has run (the trace is
    the loader's: no message printed, no token counted, no text split). *)
Theorem window_failure_precedes_dispatch
    (get_input_keys : gmap string pyobj → result (list string))
    (transform_documents : pyobj → result pyobj)
    (num_tokens_openai : string → result Z)
    (num_tokens_mistral : string → string → result Z)
    (chunk : pyobj → Z → result (list string))
    (self : ParseNode) (state : gmap string pyobj) (doc : pyobj) (e : exn) :
  outcome (load_document get_input_keys transform_documents self state)
    = Ok doc →
  context_window_expr (llm_model self) = Raise e →
  execute get_input_keys transform_documents num_tokens_openai
    num_tokens_mistral chunk self state
  = Run (trace (load_document get_input_keys transform_documents self state))
        (Raise e).
Proof.
  intros Hload Hwin. unfold execute.
  unfold mbind at 1, run_bind. rewrite Hload, Hwin. cbn.
  now rewrite app_nil_r.
Qed.

(** An Ollama model, whose branch never reads [context_window]. *)
Lemma window_failure_precedes_dispatch_witness :
  Fixture.run_execute 3 (Fixture.node ChatOllama (PStr "ollama/llama3")) "hello world"
  = Run (trace (load_document Fixture.input_keys Fixture.html2text
                  (Fixture.node ChatOllama (PStr "ollama/llama3"))
                  (Fixture.state "hello world")))
        (Raise TypeError).
Proof.
  apply (window_failure_precedes_dispatch Fixture.input_keys Fixture.html2text
           (Fixture.tokens 3) (Fixture.tokens_mistral 3) Fixture.whole_text
           (Fixture.node ChatOllama (PStr "ollama/llama3"))
           (Fixture.state "hello world") (PDocument "hello world") TypeError);
    reflexivity.
Defined.

(** * Further properties of the node *)

(** ** Steps of a run *)

Section RunSteps.
Context {A B : Type}.
Implicit Types (f : A → run B).

Lemma bind_call_ok (ev : event) (a : A) f :
  call ev (Ok a) ≫= f = Run (ev :: trace (f a)) (outcome (f a)).
Proof. reflexivity. Qed.

Lemma bind_call_raise (ev : event) (e : exn) f :
  call ev (Raise e) ≫= f = Run [ev] (Raise e).
Proof. reflexivity. Qed.

Lemma bind_lift_ok (a : A) f : lift (Ok a) ≫= f = f a.
Proof. unfold mbind, run_bind. cbn. now destruct (f a). Qed.

Lemma bind_lift_raise (e : exn) f : lift (Raise e) ≫= f = Run [] (Raise e).
Proof. reflexivity. Qed.
End RunSteps.

Lemma bind_emit {B} (ev : event) (f : unit → run B) :
  emit ev ≫= f = Run (ev :: trace (f tt)) (outcome (f tt)).
Proof. reflexivity. Qed.

(** ** Loading the document (lines 67-77) *)

Section Loading.

Variable get_input_keys : gmap string pyobj → result (list string).
Variable transform_documents : pyobj → result pyobj.
Variable num_tokens_openai : string → result Z.
Variable num_tokens_mistral : string → string → result Z.
Variable chunk : pyobj → Z → result (list string).
Variable self : ParseNode.

Abbreviation load' := (load_document get_input_keys transform_documents self).
Abbreviation exec' :=
  (execute get_input_keys transform_documents num_tokens_openai
     num_tokens_mistral chunk self).

Lemma read_inputs_missing (state : gmap string pyobj) (keys : list string)
    (k : string) :
  k ∈ keys → state !! k = None → read_inputs state keys = Raise KeyError.
Proof.
  intros Hin Hk. induction keys as [|x keys IH]; [inversion Hin|].
  unfold read_inputs in *. cbn [mapM].
  destruct (state !! x) as [v|] eqn:Hx; [|reflexivity].
  cbn. assert (k ∈ keys) as Hin'.
  { apply elem_of_cons in Hin as [->|]; [congruence | assumption]. }
  rewrite (IH Hin'). reflexivity.
Qed.

Lemma read_inputs_present (state : gmap string pyobj) (keys : list string) :
  (∀ k, k ∈ keys → is_Some (state !! k)) →
  ∃ vs, read_inputs state keys = Ok vs ∧
        head vs = head keys ≫= (state !!.).
Proof.
  intros Hall. induction keys as [|x keys IH]; [exists []; split; reflexivity|].
  destruct (Hall x) as [v Hv]; [left|].
  destruct IH as (vs & Hvs & _).
  { intros k Hk. apply Hall. now right. }
  exists (v :: vs). split; [|cbn; now rewrite Hv].
  unfold read_inputs in *. cbn [mapM]. rewrite Hv. cbn. rewrite Hvs.
  reflexivity.
Qed.

(** The loader in closed form. *)
Lemma load_document_cases (state : gmap string pyobj) :
  load' state =
  match get_input_keys state with
  | Raise e => Run [banner self; GetInputKeys] (Raise e)
  | Ok keys =>
      match read_inputs state keys ≫= getitem_first with
      | Raise e => Run [banner self; GetInputKeys] (Raise e)
      | Ok first =>
          if parse_html self
          then Run [banner self; GetInputKeys; Html2Text]
                   (transform_documents first ≫= getitem0)
          else Run [banner self; GetInputKeys] (getitem0 first)
      end
  end.
Proof.
  unfold load_document, banner. rewrite bind_emit.
  destruct (get_input_keys state) as [keys|e]; [|reflexivity].
  rewrite bind_call_ok. cbn beta. fold (read_inputs state keys).
  destruct (read_inputs state keys) as [vs|e];
    [rewrite bind_lift_ok; cbn beta | reflexivity].
  change (Ok vs ≫= getitem_first) with (getitem_first vs).
  destruct (getitem_first vs) as [first|e];
    [rewrite bind_lift_ok; cbn beta | reflexivity].
  destruct (parse_html self); [|reflexivity].
  destruct (transform_documents first); reflexivity.
Qed.

Lemma load_first_input (state : gmap string pyobj) (k : string)
    (ks : list string) (v : pyobj) :
  get_input_keys state = Ok (k :: ks) →
  (∀ k', k' ∈ ks → is_Some (state !! k')) →
  state !! k = Some v →
  load' state =
  if parse_html self
  then Run [banner self; GetInputKeys; Html2Text]
           (transform_documents v ≫= getitem0)
  else Run [banner self; GetInputKeys] (getitem0 v).
Proof.
  intros Hkeys Hall Hk. rewrite load_document_cases, Hkeys.
  destruct (read_inputs_present state (k :: ks)) as (vs & -> & Hhead).
  { intros k' [->|Hk']%elem_of_cons; [rewrite Hk; eauto | now apply Hall]. }
  cbn in Hhead. rewrite Hk in Hhead.
  destruct vs as [|v' vs]; [discriminate|]. cbn in Hhead. injection Hhead as ->.
  reflexivity.
Qed.

(** X1: whatever the node, the state and the collaborators, [execute]
    raises, and the only calls it has made are the log line, the input-key
    lookup and (with [parse_html]) the HTML normaliser: no token is
    counted, nothing is printed, semchunk is not called. *)
Theorem execute_never_reaches_dispatch (state : gmap string pyobj) :
  (∃ e, outcome (exec' state) = Raise e) ∧
  (trace (exec' state) = [banner self; GetInputKeys] ∨
   trace (exec' state) = [banner self; GetInputKeys; Html2Text]).
Proof.
  rewrite execute_stops_at_window, load_document_cases. cbn [trace outcome].
  destruct (get_input_keys state) as [keys|e]; [|split; eauto].
  destruct (read_inputs state keys ≫= getitem_first) as [first|e];
    [|split; eauto].
  destruct (parse_html self); cbn [trace outcome].
  - split; [destruct (transform_documents first ≫= getitem0)|]; eauto.
  - split; [destruct (getitem0 first)|]; eauto.
Qed.

(** X2: an input key that the state does not hold makes [execute] raise
    [KeyError] right after the key lookup, before the HTML normaliser is
    called (the error the docstring announces). *)
Theorem missing_input_key_raises_KeyError (state : gmap string pyobj)
    (keys : list string) (k : string) :
  get_input_keys state = Ok keys → k ∈ keys → state !! k = None →
  exec' state = Run [banner self; GetInputKeys] (Raise KeyError).
Proof.
  intros Hkeys Hin Hk.
  rewrite execute_stops_at_window, load_document_cases, Hkeys.
  now rewrite (read_inputs_missing state keys k Hin Hk).
Qed.

(** X3: when the key lookup returns no key at all, [input_data[0]] on
    line 72 raises [IndexError]. *)
Theorem no_input_keys_raises_IndexError (state : gmap string pyobj) :
  get_input_keys state = Ok [] →
  exec' state = Run [banner self; GetInputKeys] (Raise IndexError).
Proof.
  intros Hkeys. now rewrite execute_stops_at_window, load_document_cases, Hkeys.
Qed.

(** X4: only the value under the first input key is loaded.  The other
    keys must be present, but their values are not used: two states that
    agree on the first key load the same document with the same calls. *)
Theorem other_inputs_are_ignored (state state' : gmap string pyobj)
    (k : string) (ks ks' : list string) :
  get_input_keys state = Ok (k :: ks) →
  get_input_keys state' = Ok (k :: ks') →
  (∀ k', k' ∈ ks → is_Some (state !! k')) →
  (∀ k', k' ∈ ks' → is_Some (state' !! k')) →
  is_Some (state !! k) →
  state' !! k = state !! k →
  load' state' = load' state.
Proof.
  intros Hkeys Hkeys' Hall Hall' [v Hv] Heq.
  rewrite (load_first_input state k ks v Hkeys Hall Hv).
  rewrite (load_first_input state' k ks' v Hkeys' Hall'); [reflexivity|].
  now rewrite Heq.
Qed.

(** X5: with [parse_html] off, a raw string under the first input key is
    cut to its first character by [docs_transformed[0]]: that one
    character is all the document the dispatch receives. *)
Theorem raw_string_keeps_first_character (state : gmap string pyobj)
    (k : string) (ks : list string) (c : ascii) (rest : string) :
  parse_html self = false →
  get_input_keys state = Ok (k :: ks) →
  (∀ k', k' ∈ ks → is_Some (state !! k')) →
  state !! k = Some (PStr (String c rest)) →
  load' state = Run [banner self; GetInputKeys] (Ok (PStr (String c ""))).
Proof.
  intros Hraw Hkeys Hall Hk.
  rewrite (load_first_input state k ks _ Hkeys Hall Hk), Hraw. reflexivity.
Qed.

(** X6: an empty list of documents (the value itself with [parse_html]
    off, the normaliser's result with it on) makes [execute] raise
    [IndexError] at the [[0]] of lines 75 and 77. *)
Theorem empty_document_list_raises_IndexError (state : gmap string pyobj)
    (k : string) (ks : list string) (v : pyobj) :
  get_input_keys state = Ok (k :: ks) →
  (∀ k', k' ∈ ks → is_Some (state !! k')) →
  state !! k = Some v →
  (if parse_html self then transform_documents v = Ok (PList [])
   else v = PList []) →
  outcome (exec' state) = Raise IndexError.
Proof.
  intros Hkeys Hall Hk Hempty.
  rewrite execute_stops_at_window. cbn [outcome].
  rewrite (load_first_input state k ks v Hkeys Hall Hk).
  destruct (parse_html self); cbn [outcome];
    [rewrite Hempty | subst v]; reflexivity.
Qed.

End Loading.

Lemma missing_input_key_raises_KeyError_witness :
  execute Inputs.two_keys Fixture.html2text (Fixture.tokens 3)
    (Fixture.tokens_mistral 3) Fixture.whole_text
    (Fixture.node ChatOpenAI (PStr "openai/100")) (Fixture.state "hello")
  = Run [banner (Fixture.node ChatOpenAI (PStr "openai/100")); GetInputKeys]
        (Raise KeyError).
Proof.
  apply (missing_input_key_raises_KeyError Inputs.two_keys Fixture.html2text
           (Fixture.tokens 3) (Fixture.tokens_mistral 3) Fixture.whole_text
           (Fixture.node ChatOpenAI (PStr "openai/100")) (Fixture.state "hello")
           ["doc"; "url"]%string "url");
    [reflexivity | right; left | reflexivity].
Defined.

Lemma no_input_keys_raises_IndexError_witness :
  execute Inputs.no_keys Fixture.html2text (Fixture.tokens 3)
    (Fixture.tokens_mistral 3) Fixture.whole_text
    (Fixture.node ChatOpenAI (PStr "openai/100")) (Fixture.state "hello")
  = Run [banner (Fixture.node ChatOpenAI (PStr "openai/100")); GetInputKeys]
        (Raise IndexError).
Proof.
  apply (no_input_keys_raises_IndexError Inputs.no_keys Fixture.html2text
           (Fixture.tokens 3) (Fixture.tokens_mistral 3) Fixture.whole_text
           (Fixture.node ChatOpenAI (PStr "openai/100"))
           (Fixture.state "hello")).
  reflexivity.
Defined.

Lemma other_inputs_are_ignored_witness :
  load_document Inputs.two_keys Fixture.html2text
    (Fixture.node ChatOpenAI (PStr "openai/100"))
    (Inputs.state_with (PList [PDocument "hello"]) (PStr "https://b.example"))
  = load_document Inputs.two_keys Fixture.html2text
      (Fixture.node ChatOpenAI (PStr "openai/100"))
      (Inputs.state_with (PList [PDocument "hello"]) (PStr "https://a.example")).
Proof.
  apply (other_inputs_are_ignored Inputs.two_keys Fixture.html2text
           (Fixture.node ChatOpenAI (PStr "openai/100"))
           (Inputs.state_with (PList [PDocument "hello"])
              (PStr "https://a.example"))
           (Inputs.state_with (PList [PDocument "hello"])
              (PStr "https://b.example"))
           "doc" ["url"%string] ["url"%string]);
    try reflexivity.
  - intros k' ->%list_elem_of_singleton. eexists. reflexivity.
  - intros k' ->%list_elem_of_singleton. eexists. reflexivity.
  - eexists. reflexivity.
Defined.

Lemma raw_string_keeps_first_character_witness :
  load_document Fixture.input_keys Fixture.html2text
    (Inputs.raw_node OtherModel PNone) {[ "doc" := PStr "hello world" ]}
  = Run [banner (Inputs.raw_node OtherModel PNone); GetInputKeys]
        (Ok (PStr "h")).
Proof.
  apply (raw_string_keeps_first_character Fixture.input_keys Fixture.html2text
           (Inputs.raw_node OtherModel PNone) {[ "doc" := PStr "hello world" ]}
           "doc" [] "h"%char "ello world");
    [reflexivity | reflexivity | | reflexivity].
  intros k' Hk'. inversion Hk'.
Defined.

Lemma empty_document_list_raises_IndexError_witness :
  outcome (execute Fixture.input_keys Inputs.empty_result (Fixture.tokens 3)
             (Fixture.tokens_mistral 3) Fixture.whole_text
             (Fixture.node ChatOpenAI (PStr "openai/100"))
             (Fixture.state "hello"))
  = Raise IndexError.
Proof.
  apply (empty_document_list_raises_IndexError Fixture.input_keys
           Inputs.empty_result (Fixture.tokens 3) (Fixture.tokens_mistral 3)
           Fixture.whole_text (Fixture.node ChatOpenAI (PStr "openai/100"))
           (Fixture.state "hello") "doc" [] (PList [PDocument "hello"]));
    [reflexivity | | reflexivity | reflexivity].
  intros k' Hk'. inversion Hk'.
Defined.

(** ** More on the slicing loop (lines 84-93, 99-108) *)

Lemma str_len_of_list (l : list ascii) :
  str_len (string_of_list_ascii l) = Z.of_nat (length l).
Proof.
  unfold str_len. now rewrite <- length_list_ascii,
    list_ascii_of_string_of_list_ascii.
Qed.

Lemma window_empty_iff (l : list ascii) (w i : nat) :
  (0 < w)%nat →
  string_of_list_ascii (take w (drop (i * w) l)) = "" ↔ (length l ≤ i * w)%nat.
Proof.
  intros Hw. split.
  - intros H. change EmptyString with (string_of_list_ascii []) in H.
    apply string_of_list_ascii_inj, take_nil_inv in H as [H|H]; [lia|].
    apply (f_equal length) in H. rewrite length_drop in H. cbn in H. lia.
  - intros H. rewrite drop_ge by lia. now rewrite take_nil.
Qed.

Lemma slice_chunks_lookup (text : string) (t w : Z) (cs : list string)
    (i : nat) (c : string) :
  0 < w → slice_chunks text t (PInt w) = Ok cs → cs !! i = Some c →
  c = string_of_list_ascii
        (take (Z.to_nat w)
           (drop (i * Z.to_nat w) (list_ascii_of_string text))).
Proof.
  intros Hw Hcs Hi. rewrite slice_chunks_int in Hcs by assumption.
  injection Hcs as <-.
  change (map ?f ?l) with (f <$> l) in Hi. rewrite list_lookup_fmap in Hi.
  destruct (seq 0 (Z.to_nat (ceil_div t w)) !! i) as [j|] eqn:Hj; [|discriminate].
  apply lookup_seq in Hj as [-> _]. cbn in Hi. now injection Hi as <-.
Qed.

(** X7: on an integer width [w > 0], chunk [i] has exactly
    [max(0, min(w, len(text) - i * w))] characters: [w] while the text
    lasts, the remainder at its end, none after it. *)
Theorem chunk_lengths (text : string) (t w : Z) (cs : list string)
    (i : nat) (c : string) :
  0 < w → slice_chunks text t (PInt w) = Ok cs → cs !! i = Some c →
  str_len c = Z.max 0 (Z.min w (str_len text - Z.of_nat i * w)).
Proof.
  intros Hw Hcs Hi. rewrite (slice_chunks_lookup text t w cs i c Hw Hcs Hi).
  rewrite str_len_of_list, length_take, length_drop.
  unfold str_len. rewrite <- length_list_ascii. nia.
Qed.

Lemma chunk_lengths_witness :
  str_len "ijk" = Z.max 0 (Z.min 4 (str_len "abcdefghijk" - Z.of_nat 2 * 4)).
Proof.
  apply (chunk_lengths "abcdefghijk" 9 4 ["abcd"; "efgh"; "ijk"]%string 2 "ijk");
    [lia | reflexivity | reflexivity].
Defined.

(** X8: when the token count is zero, or the count and a non-zero width
    have opposite signs, the loop returns no chunk at all and raises
    nothing: whatever the text holds is dropped. *)
Theorem no_tokens_no_chunks (text : string) (t w : Z) :
  w ≠ 0 → t * w ≤ 0 → slice_chunks text t (PInt w) = Ok [].
Proof.
  intros Hw Hsign. unfold slice_chunks.
  destruct (Z.eqb_spec w 0) as [|_]; [contradiction|].
  rewrite num_chunks_ceil by assumption.
  assert (Hn : ceil_div t w ≤ 0).
  { unfold ceil_div. pose proof (Z.div_mod (- t) w Hw) as Hdm.
    destruct (Z.lt_trichotomy w 0) as [Hneg|[->|Hpos]]; [|lia|].
    - pose proof (Z.mod_neg_bound (- t) w Hneg). nia.
    - pose proof (Z.mod_pos_bound (- t) w Hpos). nia. }
  unfold range. replace (Z.to_nat (ceil_div t w)) with 0%nat by lia.
  reflexivity.
Qed.

Lemma no_tokens_no_chunks_witness :
  slice_chunks "a long text that is lost" 0 (PInt 90) = Ok [].
Proof.
  apply (no_tokens_no_chunks "a long text that is lost" 0 90); lia.
Defined.

(** X9: on an integer width [w > 0], when the token count is at least
    the number of characters of the text, the chunks concatenate to the
    whole text: nothing is lost. *)
Theorem lossless_when_tokens_cover_text (text : string) (t w : Z) :
  0 < w → str_len text ≤ t →
  ∃ cs, slice_chunks text t (PInt w) = Ok cs ∧ join cs = text.
Proof.
  intros Hw Hlen. rewrite slice_chunks_int by assumption. eexists.
  split; [reflexivity|]. rewrite join_windows.
  pose proof (ceil_div_bounds t w Hw) as [_ Hup].
  unfold str_len in Hlen. rewrite <- length_list_ascii in Hlen.
  rewrite take_ge by nia. apply string_of_list_ascii_of_string.
Qed.

Lemma lossless_when_tokens_cover_text_witness :
  ∃ cs, slice_chunks "hello world" 11 (PInt 4) = Ok cs ∧
        join cs = "hello world".
Proof.
  apply (lossless_when_tokens_cover_text "hello world" 11 4);
    [lia | vm_compute; discriminate].
Defined.

(** X10: on an integer width [w > 0] the empty chunks are a tail of the
    sequence: after an empty chunk every chunk is empty. *)
Theorem empty_chunks_are_a_tail (text : string) (t w : Z) (cs : list string)
    (i j : nat) :
  0 < w → slice_chunks text t (PInt w) = Ok cs →
  cs !! i = Some ""%string → (i ≤ j < length cs)%nat →
  cs !! j = Some ""%string.
Proof.
  intros Hw Hcs Hi [Hij Hj].
  destruct (lookup_lt_is_Some_2 cs j Hj) as [c Hc]. rewrite Hc. f_equal.
  pose proof (slice_chunks_lookup text t w cs i "" Hw Hcs Hi) as Hempty.
  symmetry in Hempty. apply window_empty_iff in Hempty; [|lia].
  rewrite (slice_chunks_lookup text t w cs j c Hw Hcs Hc).
  apply window_empty_iff; [lia | nia].
Qed.

Lemma empty_chunks_are_a_tail_witness :
  ["ab"; ""; ""]%string !! 2%nat = Some ""%string.
Proof.
  apply (empty_chunks_are_a_tail "ab" 5 2 ["ab"; ""; ""]%string 1 2);
    [lia | reflexivity | reflexivity | simpl; lia].
Defined.

(** ** The dispatch and the store (lines 81-130) *)

Lemma slice_chunks_ok_inv (text : string) (t : Z) (cw : pyobj)
    (cs : list string) :
  slice_chunks text t cw = Ok cs → ∃ w, cw = PInt w ∧ w ≠ 0.
Proof.
  destruct cw as [| |w|f| |]; cbn; try discriminate.
  - destruct (Z.eqb_spec w 0); [discriminate | eauto].
  - destruct (float_of_int t); cbn; [|discriminate].
    destruct (f =? 0)%float; discriminate.
Qed.

Section Dispatch.

Variable num_tokens_openai : string → result Z.
Variable num_tokens_mistral : string → string → result Z.
Variable chunk : pyobj → Z → result (list string).
Variable self : ParseNode.

Abbreviation from' :=
  (execute_from num_tokens_openai num_tokens_mistral chunk self).
Abbreviation disp := (dispatch num_tokens_openai num_tokens_mistral chunk self).

(** X11: the OpenAI and Mistral branches complete only when the
    document is a [Document] and [context_window] holds a non-zero
    [int]: a float, a string or [None] there, or a raw string as
    document, always ends in an exception. *)
Theorem counted_branch_needs_integer_window
    (state st' : gmap string pyobj) (doc cw : pyobj) :
  class_of (llm_model self) = ChatOpenAI ∨
  class_of (llm_model self) = ChatMistralAI →
  outcome (from' state doc cw) = Ok st' →
  ∃ (text : string) (w : Z), doc = PDocument text ∧ cw = PInt w ∧ w ≠ 0.
Proof.
  intros Hclass H.
  apply execute_from_ok in H as (key & rest & cs & _ & Hd & _).
  unfold dispatch in Hd.
  destruct (llm_model self) as [[c nm]|]; cbn in Hclass;
    [|destruct Hclass; discriminate].
  destruct c; try (destruct Hclass; discriminate).
  - apply bind_ok_inv in Hd as (text & Htext & Hd).
    apply bind_ok_inv in Hd as (t & _ & Hd).
    apply bind_ok_inv in Hd as (cs' & Hslice & _).
    destruct doc; try discriminate. cbn in Htext. injection Htext as ->.
    cbn in Hslice. apply slice_chunks_ok_inv in Hslice as (w & -> & Hw). eauto.
  - apply bind_ok_inv in Hd as (model_name & _ & Hd).
    apply bind_ok_inv in Hd as (text & Htext & Hd).
    apply bind_ok_inv in Hd as (t & _ & Hd).
    apply bind_ok_inv in Hd as (cs' & Hslice & _).
    destruct doc; try discriminate. cbn in Htext. injection Htext as ->.
    cbn in Hslice. apply slice_chunks_ok_inv in Hslice as (w & -> & Hw). eauto.
Qed.

(** X12: from line 81 on the node calls at most one collaborator, and
    only the one of its branch: the OpenAI counter, the Mistral counter,
    [print] or semchunk. *)
Theorem each_branch_calls_only_its_collaborator
    (state : gmap string pyobj) (doc cw : pyobj) :
  (length (trace (from' state doc cw)) ≤ 1)%nat ∧
  Forall (fun ev => own_event (class_of (llm_model self)) ev = true)
    (trace (from' state doc cw)).
Proof.
  assert (Hd : (length (trace (disp doc cw)) ≤ 1)%nat ∧
               Forall (fun ev => own_event (class_of (llm_model self)) ev = true)
                 (trace (disp doc cw))).
  { unfold dispatch. destruct (llm_model self) as [[[] nm]|]; cbn [class_of from_option class].
    - destruct (page_content_of doc) as [text|e];
        [rewrite bind_lift_ok | rewrite bind_lift_raise; cbn; auto].
      destruct (num_tokens_openai text) as [t|e];
        [rewrite bind_call_ok | rewrite bind_call_raise; cbn; auto].
      cbn beta. destruct (slice_chunks text t cw) as [cs|e];
        [rewrite bind_lift_ok | rewrite bind_lift_raise]; cbn; auto.
    - destruct (split_slash nm ≫= getitem_last) as [model_name|e];
        [rewrite bind_lift_ok | rewrite bind_lift_raise; cbn; auto].
      cbn beta. destruct (page_content_of doc) as [text|e];
        [rewrite bind_lift_ok | rewrite bind_lift_raise; cbn; auto].
      cbn beta. destruct (num_tokens_mistral text model_name) as [t|e];
        [rewrite bind_call_ok | rewrite bind_call_raise; cbn; auto].
      cbn beta. destruct (slice_chunks text t cw) as [cs|e];
        [rewrite bind_lift_ok | rewrite bind_lift_raise]; cbn; auto.
    - cbn. auto.
    - destruct (shrink_chunk_size (default 4096 (chunk_size self))) as [size|e];
        [rewrite bind_lift_ok | rewrite bind_lift_raise; cbn; auto].
      cbn beta zeta. destruct (chunk _ size);
        [rewrite bind_call_ok | rewrite bind_call_raise]; cbn; auto.
    - destruct (shrink_chunk_size (default 4096 (chunk_size self))) as [size|e];
        [rewrite bind_lift_ok | rewrite bind_lift_raise; cbn; auto].
      cbn beta zeta. destruct (chunk _ size);
        [rewrite bind_call_ok | rewrite bind_call_raise]; cbn; auto. }
  unfold execute_from. rewrite trace_bind.
  destruct (outcome (disp doc cw)); [|exact Hd].
  cbn [lift trace]. now rewrite app_nil_r.
Qed.

(** X13: a node with no output key never completes: once a branch has
    produced its chunks (tokens counted, semchunk called), line 128 raises
    [IndexError] on [self.output[0]]. *)
Theorem empty_output_raises_IndexError
    (state : gmap string pyobj) (doc cw : pyobj) :
  output self = [] →
  (∀ st', outcome (from' state doc cw) ≠ Ok st') ∧
  (∀ chunks, outcome (disp doc cw) = Ok chunks →
             from' state doc cw = Run (trace (disp doc cw)) (Raise IndexError)).
Proof.
  intros Hout. split.
  - intros st' H. apply execute_from_ok in H as (key & rest & _ & H & _).
    congruence.
  - intros chunks Hd. unfold execute_from, mbind, run_bind. rewrite Hd.
    unfold store_chunks. rewrite Hout. cbn. now rewrite app_nil_r.
Qed.

(** X14: the store is idempotent: running lines 81-130 again on the
    state they returned, with the same document and window, makes the
    same calls and returns that state unchanged. *)
Theorem execute_from_idempotent
    (state st' : gmap string pyobj) (doc cw : pyobj) :
  outcome (from' state doc cw) = Ok st' →
  from' st' doc cw = from' state doc cw.
Proof.
  intros H. pose proof H as H'.
  apply execute_from_ok in H' as (key & rest & cs & Hout & Hd & ->).
  unfold execute_from, mbind, run_bind. rewrite Hd.
  unfold store_chunks. rewrite Hout. cbn. now rewrite insert_insert_eq.
Qed.

End Dispatch.

Lemma counted_branch_needs_integer_window_witness :
  ∃ (text : string) (w : Z),
    PDocument "hello world" = PDocument text ∧ PInt 4 = PInt w ∧ w ≠ 0.
Proof.
  apply (counted_branch_needs_integer_window (Fixture.tokens 2)
           (Fixture.tokens_mistral 2) Fixture.whole_text
           (Fixture.node ChatOpenAI (PStr "openai/4"))
           (Fixture.state "hello world")
           (<["parsed_doc" := PList [PStr "hell"]]> (Fixture.state "hello world"))
           (PDocument "hello world") (PInt 4));
    [left; reflexivity | reflexivity].
Defined.

Lemma empty_output_raises_IndexError_witness :
  (∀ st', outcome (Fixture.run_from 2 (Inputs.silent_node ChatOpenAI)
                     "hello world" (PInt 4)) ≠ Ok st') ∧
  (∀ chunks,
     outcome (dispatch (Fixture.tokens 2) (Fixture.tokens_mistral 2)
                Fixture.whole_text (Inputs.silent_node ChatOpenAI)
                (PDocument "hello world") (PInt 4)) = Ok chunks →
     Fixture.run_from 2 (Inputs.silent_node ChatOpenAI) "hello world" (PInt 4)
     = Run (trace (dispatch (Fixture.tokens 2) (Fixture.tokens_mistral 2)
                     Fixture.whole_text (Inputs.silent_node ChatOpenAI)
                     (PDocument "hello world") (PInt 4)))
           (Raise IndexError)).
Proof.
  apply (empty_output_raises_IndexError (Fixture.tokens 2)
           (Fixture.tokens_mistral 2) Fixture.whole_text
           (Inputs.silent_node ChatOpenAI) (Fixture.state "hello world")
           (PDocument "hello world") (PInt 4)).
  reflexivity.
Defined.

Lemma execute_from_idempotent_witness :
  execute_from (Fixture.tokens 2) (Fixture.tokens_mistral 2)
    Fixture.whole_text (Fixture.node ChatOpenAI (PStr "openai/4"))
    (<["parsed_doc" := PList [PStr "hell"]]> (Fixture.state "hello world"))
    (PDocument "hello world") (PInt 4)
  = execute_from (Fixture.tokens 2) (Fixture.tokens_mistral 2)
      Fixture.whole_text (Fixture.node ChatOpenAI (PStr "openai/4"))
      (Fixture.state "hello world") (PDocument "hello world") (PInt 4).
Proof.
  apply (execute_from_idempotent (Fixture.tokens 2) (Fixture.tokens_mistral 2)
           Fixture.whole_text (Fixture.node ChatOpenAI (PStr "openai/4"))).
  reflexivity.
Defined.

(** ** The model name of lines 79 and 96 *)

Lemma append_assoc' (a b c : string) : (a +:+ b) +:+ c = a +:+ (b +:+ c).
Proof.
  induction a as [|x a IH]; [reflexivity | now rewrite !append_cons, IH].
Qed.

Lemma split_pair_rejoin (sep : ascii) (s seg : string) (segs : list string) :
  split_pair sep s = (seg, segs) →
  s = seg +:+ glue sep segs ∧
  Forall (fun x => ¬ occurs sep x) (seg :: segs).
Proof.
  revert seg segs. induction s as [|c rest IH]; intros seg segs H.
  - injection H as <- <-. split; [reflexivity|]. repeat constructor. intros [].
  - cbn [split_pair] in H. destruct (split_pair sep rest) as [seg' segs'].
    destruct (IH seg' segs' eq_refl) as [Hrest Hfree].
    destruct (Ascii.eqb_spec c sep) as [->|Hne]; injection H as <- <-.
    + split; [now rewrite Hrest|]. constructor; [intros []|exact Hfree].
    + split; [now rewrite Hrest|]. inversion Hfree as [|? ? Hseg Hsegs]; subst.
      constructor; [|exact Hsegs]. intros [Heq|Hin]; [congruence|now apply Hseg].
Qed.

Lemma last_segment_suffix (sep : ascii) (seg : string) (segs : list string)
    (l : string) :
  last (seg :: segs) = Some l →
  ∃ prefix, seg +:+ glue sep segs = prefix +:+ l ∧
            (prefix = "" ∨ ∃ p, prefix = p +:+ String sep "").
Proof.
  revert seg. induction segs as [|x segs IH]; intros seg H.
  - injection H as <-. exists "". split; [apply append_empty_r | now left].
  - rewrite last_cons_cons in H. destruct (IH x H) as (prefix' & Heq & Hp).
    exists (seg +:+ String sep prefix'). cbn [glue]. rewrite Heq. split.
    + now rewrite append_assoc', append_cons.
    + right. destruct Hp as [->|(p & ->)]; [now exists seg|].
      exists (seg +:+ String sep p). now rewrite append_assoc', append_cons.
Qed.

Lemma last_segment_spec (s segment : string) :
  getitem_last (str_split "/" s) = Ok segment →
  ∃ prefix, s = prefix +:+ segment ∧ ¬ occurs "/" segment ∧
            (prefix = "" ∨ ∃ p, prefix = p +:+ "/").
Proof.
  unfold getitem_last, str_split.
  destruct (split_pair "/" s) as [seg segs] eqn:Hsplit.
  destruct (last (seg :: segs)) as [l|] eqn:Hlast; [|discriminate].
  intros [= ->]. apply split_pair_rejoin in Hsplit as [Hs Hfree].
  destruct (last_segment_suffix "/" seg segs segment Hlast) as (prefix & Heq & Hp).
  exists prefix. split; [congruence|]. split; [|exact Hp].
  apply last_Some_elem_of in Hlast. rewrite Forall_forall in Hfree.
  now apply Hfree.
Qed.

(** X15: on the Mistral branch the tokenizer is called once, on the
    document's text, with the part of the model's name after its last "/"
    (the whole name when it has none): the name is a prefix, empty or
    ending in "/", followed by that segment, which holds no "/". *)
Theorem mistral_counter_gets_last_segment
    (num_tokens_openai : string → result Z)
    (num_tokens_mistral : string → string → result Z)
    (chunk : pyobj → Z → result (list string))
    (self : ParseNode) (state : gmap string pyobj) (text s : string)
    (cw : pyobj) :
  llm_model self = Some (ChatModel ChatMistralAI (PStr s)) →
  ∃ prefix segment : string,
    s = prefix +:+ segment ∧ ¬ occurs "/" segment ∧
    (prefix = "" ∨ ∃ p, prefix = p +:+ "/") ∧
    trace (execute_from num_tokens_openai num_tokens_mistral chunk self state
             (PDocument text) cw) = [CountMistral text segment].
Proof.
  intros Hm. destruct (str_split_last "/" s) as [segment Hseg].
  destruct (last_segment_spec s segment Hseg) as (prefix & Hs & Hfree & Hp).
  exists prefix, segment. repeat (split; [assumption|]).
  assert (Hname : (segments ← split_slash (PStr s); getitem_last segments)
                  = Ok segment) by exact Hseg.
  unfold execute_from. rewrite trace_bind. unfold dispatch. rewrite Hm.
  cbv beta iota. rewrite Hname, bind_lift_ok. cbn [page_content_of].
  rewrite bind_lift_ok.
  destruct (num_tokens_mistral text segment) as [t|e];
    [rewrite bind_call_ok | rewrite bind_call_raise; reflexivity].
  cbn beta. destruct (slice_chunks text t cw) as [cs|e];
    [rewrite bind_lift_ok | rewrite bind_lift_raise]; reflexivity.
Qed.

Lemma mistral_counter_gets_last_segment_witness :
  ∃ prefix segment : string,
    "mistralai/open-mistral-7b" = prefix +:+ segment ∧
    ¬ occurs "/" segment ∧
    (prefix = "" ∨ ∃ p, prefix = p +:+ "/") ∧
    trace (Fixture.run_from 3
             (Fixture.node ChatMistralAI (PStr "mistralai/open-mistral-7b"))
             "hello world" (PInt 4))
    = [CountMistral "hello world" segment].
Proof.
  apply (mistral_counter_gets_last_segment (Fixture.tokens 3)
           (Fixture.tokens_mistral 3) Fixture.whole_text
           (Fixture.node ChatMistralAI (PStr "mistralai/open-mistral-7b"))
           (Fixture.state "hello world") "hello world"
           "mistralai/open-mistral-7b" (PInt 4)).
  reflexivity.
Defined.

(** ** The constructor (lines 33-49) *)

(** X16: the constructor cannot be called with its own default
    [node_config=None]: lines 42-47 test for [None], line 49 does not, and
    [None.get] raises [AttributeError] once the base initialiser has
    returned. *)
Theorem init_without_config_raises (base_init : result unit)
    (input : string) (output : list string) (node_name : string) :
  (∀ node, init base_init input output None node_name ≠ Ok node) ∧
  init (Ok tt) input output None node_name = Raise AttributeError.
Proof.
  split; [|reflexivity]. intros node. destruct base_init; discriminate.
Qed.

Lemma init_ok_inv (base_init : result unit) (input : string)
    (output : list string) (config : option node_config)
    (node_name : string) (node : ParseNode) :
  init base_init input output config node_name = Ok node →
  ∃ cfg, config = Some cfg ∧
         node = {| node_name := node_name;
                   output := output;
                   verbose := default false (cfg_verbose cfg);
                   parse_html := default true (cfg_parse_html cfg);
                   llm_model := cfg_llm_model cfg;
                   chunk_size := cfg_chunk_size cfg |}.
Proof.
  unfold init. destruct base_init; [|discriminate].
  destruct config as [cfg|]; [|discriminate]. cbn. intros [= <-]. eauto.
Qed.

Section Constructed.

Variable get_input_keys : gmap string pyobj → result (list string).
Variable transform_documents : pyobj → result pyobj.
Variable num_tokens_openai : string → result Z.
Variable num_tokens_mistral : string → string → result Z.
Variable chunk : pyobj → Z → result (list string).

(** X17: a node built from a configuration without "llm_model" is
    accepted by the constructor and fails in [execute]: once the document
    is loaded, line 79 raises [AttributeError] on [None.name]. *)
Theorem node_without_model_fails_at_window (base_init : result unit)
    (input : string) (output : list string) (cfg : node_config)
    (node_name : string) (node : ParseNode) (state : gmap string pyobj)
    (doc : pyobj) :
  init base_init input output (Some cfg) node_name = Ok node →
  cfg_llm_model cfg = None →
  outcome (load_document get_input_keys transform_documents node state)
    = Ok doc →
  execute get_input_keys transform_documents num_tokens_openai
    num_tokens_mistral chunk node state
  = Run (trace (load_document get_input_keys transform_documents node state))
        (Raise AttributeError).
Proof.
  intros Hinit Hmodel Hload.
  apply init_ok_inv in Hinit as (cfg' & [= <-] & ->).
  rewrite execute_stops_at_window, Hload. cbn [llm_model]. now rewrite Hmodel.
Qed.

(** X18: a configuration that does not mention "parse_html" gives a node
    that normalises HTML: with its input keys present, [execute] logs its
    name, looks the keys up and calls the HTML normaliser, in that order,
    and nothing else. *)
Theorem default_parse_html_runs_normaliser (base_init : result unit)
    (input : string) (output : list string) (cfg : node_config)
    (node_name : string) (node : ParseNode) (state : gmap string pyobj)
    (keys : list string) :
  init base_init input output (Some cfg) node_name = Ok node →
  cfg_parse_html cfg = None →
  get_input_keys state = Ok keys → keys ≠ [] →
  (∀ k, k ∈ keys → is_Some (state !! k)) →
  trace (execute get_input_keys transform_documents num_tokens_openai
           num_tokens_mistral chunk node state)
  = [LogInfo ("--- Executing " +:+ node_name +:+ " Node ---");
     GetInputKeys; Html2Text].
Proof.
  intros Hinit Hhtml Hkeys Hne Hall.
  apply init_ok_inv in Hinit as (cfg' & [= <-] & ->).
  destruct keys as [|k ks]; [contradiction|].
  destruct (Hall k) as [v Hv]; [left|].
  rewrite execute_stops_at_window. cbn [trace].
  rewrite (load_first_input get_input_keys transform_documents _ state k ks v
             Hkeys); [|intros k' Hk'; apply Hall; now right|exact Hv].
  cbn [parse_html]. rewrite Hhtml. reflexivity.
Qed.

End Constructed.

Lemma node_without_model_fails_at_window_witness :
  execute Fixture.input_keys Fixture.html2text (Fixture.tokens 3)
    (Fixture.tokens_mistral 3) Fixture.whole_text
    {| node_name := "Parse"; output := ["parsed_doc"%string];
       verbose := false; parse_html := true; llm_model := None;
       chunk_size := None |}
    (Fixture.state "hello")
  = Run (trace (load_document Fixture.input_keys Fixture.html2text
                  {| node_name := "Parse"; output := ["parsed_doc"%string];
                     verbose := false; parse_html := true; llm_model := None;
                     chunk_size := None |}
                  (Fixture.state "hello")))
        (Raise AttributeError).
Proof.
  apply (node_without_model_fails_at_window Fixture.input_keys
           Fixture.html2text (Fixture.tokens 3) (Fixture.tokens_mistral 3)
           Fixture.whole_text (Ok tt) "doc" ["parsed_doc"%string]
           (Inputs.config_with None) "Parse" _ (Fixture.state "hello")
           (PDocument "hello")); reflexivity.
Defined.

Lemma default_parse_html_runs_normaliser_witness :
  trace (execute Fixture.input_keys Fixture.html2text (Fixture.tokens 3)
           (Fixture.tokens_mistral 3) Fixture.whole_text
           (Fixture.node ChatOpenAI (PStr "openai/100")) (Fixture.state "hello"))
  = [LogInfo ("--- Executing " +:+ "Parse" +:+ " Node ---");
     GetInputKeys; Html2Text].
Proof.
  apply (default_parse_html_runs_normaliser Fixture.input_keys
           Fixture.html2text (Fixture.tokens 3) (Fixture.tokens_mistral 3)
           Fixture.whole_text (Ok tt) "doc" ["parsed_doc"%string]
           (Inputs.config_with (Some (ChatModel ChatOpenAI (PStr "openai/100"))))
           "Parse" (Fixture.node ChatOpenAI (PStr "openai/100"))
           (Fixture.state "hello") ["doc"%string]);
    [reflexivity | reflexivity | reflexivity | discriminate |].
  intros k ->%list_elem_of_singleton. eexists. reflexivity.
Defined.

(** ** The budget of the generic branch (lines 114-126) *)

Lemma budget_is_reserve_upto_5000 :
  forallb budget_is_reserve (seqZ 0 5001) = true.
Proof. vm_compute. reflexivity. Qed.

Lemma shrink_chunk_size_small (c : Z) :
  0 ≤ c ≤ 5000 → shrink_chunk_size c = Ok (c - 500).
Proof.
  intros Hc. pose proof budget_is_reserve_upto_5000 as H.
  rewrite forallb_forall in H. specialize (H c).
  unfold budget_is_reserve in H.
  destruct (shrink_chunk_size c) as [b|e].
  - f_equal. apply Z.eqb_eq, H, list_elem_of_In, elem_of_seqZ. lia.
  - discriminate H. apply list_elem_of_In, elem_of_seqZ. lia.
Qed.

(** X19: for a configured [chunk_size] from 0 to 5000 (the default 4096
    among them) the generic branch calls semchunk once, on the document's
    text, with the budget [chunk_size - 500]: the 0.9 factor never
    decides, and a [chunk_size] of 500 or less gives semchunk a budget
    that is zero or negative. *)
Theorem generic_budget_is_size_minus_500
    (num_tokens_openai : string → result Z)
    (num_tokens_mistral : string → string → result Z)
    (chunk : pyobj → Z → result (list string))
    (self : ParseNode) (state : gmap string pyobj) (text : string)
    (cw : pyobj) (c : Z) :
  class_of (llm_model self) = OtherModel →
  default 4096 (chunk_size self) = c → 0 ≤ c ≤ 5000 →
  trace (execute_from num_tokens_openai num_tokens_mistral chunk self state
           (PDocument text) cw) = [Semchunk (PStr text) (c - 500)].
Proof.
  intros Hclass Hsize Hc. unfold execute_from. rewrite trace_bind.
  assert (Hd : dispatch num_tokens_openai num_tokens_mistral chunk self
                 (PDocument text) cw
               = (size ← lift (shrink_chunk_size c);
                  chunks ← call (Semchunk (PStr text) size)
                                (chunk (PStr text) size);
                  mret (Some chunks))).
  { unfold dispatch. rewrite Hsize.
    destruct (llm_model self) as [[[] nm]|]; try discriminate; reflexivity. }
  rewrite Hd, (shrink_chunk_size_small c Hc), bind_lift_ok.
  destruct (chunk (PStr text) (c - 500)); reflexivity.
Qed.

Lemma generic_budget_is_size_minus_500_witness :
  trace (Fixture.run_from 3 (Inputs.sized_node 400) "one two three" PNone)
  = [Semchunk (PStr "one two three") (400 - 500)].
Proof.
  apply (generic_budget_is_size_minus_500 (Fixture.tokens 3)
           (Fixture.tokens_mistral 3) Fixture.whole_text
           (Inputs.sized_node 400) (Fixture.state "one two three")
           "one two three" PNone 400); [reflexivity | reflexivity | lia].
Defined.
